(** * The interaction layer of the landing page (src/app/page.tsx)

    The component [TorestechWebsite] keeps four pieces of React state (theme,
    mobile menu, WhatsApp button, statistics counters) and mutates them from
    five kinds of callbacks: click handlers, the scroll listener, the
    IntersectionObserver callback and the interval timers started by
    [animateStats].  This file embeds that logic: JavaScript numbers are
    IEEE-754 binary64 values (Rocq's primitive [float]), the browser objects the
    code talks to (document, interval table, observer, scroll listener) are
    explicit fields of the page state, and an exception is a [Throw] result.
    The markup, the forms and the teardown of the effects are not modelled. *)

From Stdlib Require Import ZArith PrimFloat SpecFloat FloatOps Uint63.
From stdpp Require Import list strings.

(** ** JavaScript numbers *)

Module JS.

(** [Math.floor] on a binary64 value: NaN, the infinities, the zeros and every
    value whose exponent is non-negative are already integral. *)
Definition Math_floor (x : float) : float :=
  match Prim2SF x with
  | S754_finite s m e =>
      if (0 <=? e)%Z then x
      else
        let q := Z.shiftr (Z.pos m) (- e) in
        let exact := Z.eqb (Z.shiftl q (- e)) (Z.pos m) in
        let n := if s && negb exact then (q + 1)%Z else q in
        let a := PrimFloat.of_uint63 (Uint63.of_Z n) in
        if s then PrimFloat.opp a else a
  | _ => x
  end.

(** The relational operators [a > b] and [a >= b] on numbers. *)
Definition gt (a b : float) : bool := PrimFloat.ltb b a.
Definition ge (a b : float) : bool := PrimFloat.leb b a.
Definition le (a b : float) : bool := PrimFloat.leb a b.

(** A thrown exception, and the result of running a handler. *)
Inductive Exn : Type :=
| TypeError (msg : string).

Inductive Result (A : Type) : Type :=
| Ok (a : A)
| Throw (e : Exn).
Arguments Ok {A} a.
Arguments Throw {A} e.

Definition bind {A B : Type} (r : Result A) (f : A -> Result B) : Result B :=
  match r with
  | Ok a => f a
  | Throw e => Throw e
  end.

End JS.

Import JS.

(** ** The document *)

Record Element : Type := mkElement { el_id : string }.

Definition Element_eqb (a b : Element) : bool := String.eqb (el_id a) (el_id b).

(** [document.getElementById(id)]: the first element carrying the id, or null. *)
Definition getElementById (doc : list Element) (id : string) : option Element :=
  List.find (fun e => String.eqb (el_id e) id) doc.

(** The sections rendered by the component, in document order. *)
Definition rendered : list Element :=
  [ mkElement "hero"; mkElement "stats-section"; mkElement "services";
    mkElement "about"; mkElement "contact" ].

(** ** Statistics counters *)

Inductive StatKey : Type := K_projects | K_clients | K_years | K_hours.

Global Instance StatKey_eq_dec : EqDecision StatKey.
Proof. solve_decision. Defined.

Record Stats : Type := mkStats {
  projects : float;
  clients : float;
  years : float;
  hours : float
}.

Definition get (o : Stats) (k : StatKey) : float :=
  match k with
  | K_projects => projects o
  | K_clients => clients o
  | K_years => years o
  | K_hours => hours o
  end.

(** [{ ...prev, [key]: v }] *)
Definition spread_set (prev : Stats) (k : StatKey) (v : float) : Stats :=
  match k with
  | K_projects => mkStats v (clients prev) (years prev) (hours prev)
  | K_clients => mkStats (projects prev) v (years prev) (hours prev)
  | K_years => mkStats (projects prev) (clients prev) v (hours prev)
  | K_hours => mkStats (projects prev) (clients prev) (years prev) v
  end.

(** [Object.keys(targets)]: insertion order of the literal. *)
Definition Object_keys : list StatKey := [K_projects; K_clients; K_years; K_hours].

(** The interval timer created for one key: the variables its closure
    captures ([key], [target], [increment], the mutable [current]), the delay
    it was registered with, and whether [clearInterval] was called on it. *)
Record Interval : Type := mkInterval {
  key : StatKey;
  target : float;
  increment : float;
  current : float;
  delay : float;
  cleared : bool
}.

Record IntersectionObserverEntry : Type := mkEntry {
  entry_target : Element;
  isIntersecting : bool
}.

(** ** Page state *)

Record Page : Type := mkPage {
  (* React state of the component *)
  theme : option string;            (* useTheme().theme; undefined is None *)
  isMobileMenuOpen : bool;
  showWhatsApp : bool;
  animatedStats : Stats;
  (* browser objects the component talks to *)
  document : list Element;
  scrollListening : bool;           (* window "scroll" listener registered *)
  observed : list Element;          (* targets of the IntersectionObserver *)
  intervals : list Interval;        (* interval table; the id is the index *)
  scrolledIntoView : list Element   (* scrollIntoView requests, latest first *)
}.

Definition setTheme (t : string) (s : Page) : Page :=
  mkPage (Some t) (isMobileMenuOpen s) (showWhatsApp s) (animatedStats s)
         (document s) (scrollListening s) (observed s) (intervals s) (scrolledIntoView s).

Definition setIsMobileMenuOpen (b : bool) (s : Page) : Page :=
  mkPage (theme s) b (showWhatsApp s) (animatedStats s)
         (document s) (scrollListening s) (observed s) (intervals s) (scrolledIntoView s).

Definition setShowWhatsApp (b : bool) (s : Page) : Page :=
  mkPage (theme s) (isMobileMenuOpen s) b (animatedStats s)
         (document s) (scrollListening s) (observed s) (intervals s) (scrolledIntoView s).

(** [setAnimatedStats(prev => f(prev))] *)
Definition setAnimatedStats (f : Stats -> Stats) (s : Page) : Page :=
  mkPage (theme s) (isMobileMenuOpen s) (showWhatsApp s) (f (animatedStats s))
         (document s) (scrollListening s) (observed s) (intervals s) (scrolledIntoView s).

Definition set_scrollListening (b : bool) (s : Page) : Page :=
  mkPage (theme s) (isMobileMenuOpen s) (showWhatsApp s) (animatedStats s)
         (document s) b (observed s) (intervals s) (scrolledIntoView s).

Definition set_observed (l : list Element) (s : Page) : Page :=
  mkPage (theme s) (isMobileMenuOpen s) (showWhatsApp s) (animatedStats s)
         (document s) (scrollListening s) l (intervals s) (scrolledIntoView s).

Definition set_intervals (l : list Interval) (s : Page) : Page :=
  mkPage (theme s) (isMobileMenuOpen s) (showWhatsApp s) (animatedStats s)
         (document s) (scrollListening s) (observed s) l (scrolledIntoView s).

Definition set_scrolledIntoView (l : list Element) (s : Page) : Page :=
  mkPage (theme s) (isMobileMenuOpen s) (showWhatsApp s) (animatedStats s)
         (document s) (scrollListening s) (observed s) (intervals s) l.

(** ** Handlers of the component *)

(** [toggleDarkMode]: [setTheme(theme === "dark" ? "light" : "dark")]. *)
Definition is_dark (t : option string) : bool :=
  match t with
  | Some t => String.eqb t "dark"
  | None => false
  end.

Definition toggleDarkMode (s : Page) : Page :=
  setTheme (if is_dark (theme s) then "light" else "dark") s.

(** The scroll listener: [setShowWhatsApp(window.scrollY > 300)]. *)
Definition handleScroll (scrollY : float) (s : Page) : Page :=
  setShowWhatsApp (JS.gt scrollY 300) s.

Definition targets : Stats := mkStats 150 99 5 24.
Definition duration : float := 2000.
Definition steps : float := 60.

(** [setInterval(callback, delay)]: the timer is appended to the interval
    table; its id is its index. *)
Definition setInterval (t : Interval) (s : Page) : Page :=
  set_intervals (intervals s ++ [t]) s.

(** The body of [Object.keys(targets).forEach((key) => ...)] for one key. *)
Definition startCounter (k : StatKey) (s : Page) : Page :=
  let target := get targets k in
  let increment := (target / steps)%float in
  let current := 0%float in
  setInterval (mkInterval k target increment current (duration / steps)%float false) s.

Definition animateStats (s : Page) : Page :=
  fold_left (fun s k => startCounter k s) Object_keys s.

(** What one firing of the interval callback does to the variables of its
    closure: [current += increment; if (current >= target) { current = target;
    clearInterval(timer) }]. *)
Definition tick (t : Interval) : Interval :=
  let current1 := (current t + increment t)%float in
  if JS.ge current1 (target t)
  then mkInterval (key t) (target t) (increment t) (target t) (delay t) true
  else mkInterval (key t) (target t) (increment t) current1 (delay t) (cleared t).

(** One firing of the interval with id [id]: the closure is updated in the
    table, then [setAnimatedStats(prev => ({...prev, [key]: Math.floor(current)}))]. *)
Definition timerCallback (id : nat) (t : Interval) (s : Page) : Page :=
  let t' := tick t in
  setAnimatedStats (fun prev => spread_set prev (key t') (JS.Math_floor (current t')))
                   (set_intervals (<[id := t']> (intervals s)) s).

(** The IntersectionObserver callback:
    [entries.forEach((entry) => { if (entry.isIntersecting) animateStats() })]. *)
Definition observerCallback (entries : list IntersectionObserverEntry) (s : Page) : Page :=
  fold_left (fun s entry => if isIntersecting entry then animateStats s else s) entries s.

(** [el.scrollIntoView({ behavior: "smooth" })]; calling a method on null
    throws. *)
Definition scrollIntoView (el : option Element) (s : Page) : Result Page :=
  match el with
  | Some e => Ok (set_scrolledIntoView (e :: scrolledIntoView s) s)
  | None => Throw (TypeError "Cannot read properties of null (reading 'scrollIntoView')")
  end.

(** [el?.m(...)]: the call is skipped when [el] is null. *)
Definition optional_call (el : option Element)
    (m : option Element -> Page -> Result Page) (s : Page) : Result Page :=
  match el with
  | Some _ => m el s
  | None => Ok s
  end.

Definition scrollToSection (sectionId : string) (s : Page) : Result Page :=
  JS.bind (optional_call (getElementById (document s) sectionId) scrollIntoView s)
          (fun s => Ok (setIsMobileMenuOpen false s)).

(** [observer.observe(target)]; a target that is not an element throws. *)
Definition observe (el : option Element) (s : Page) : Result Page :=
  match el with
  | Some e => Ok (set_observed (e :: observed s) s)
  | None => Throw (TypeError "parameter 1 is not of type 'Element'")
  end.

(** ** Mounting *)

(** First effect: [window.addEventListener("scroll", handleScroll)]. *)
Definition scrollEffect (s : Page) : Result Page :=
  Ok (set_scrollListening true s).

(** Second effect: the observer is created and, if the stats section exists,
    told to observe it. *)
Definition observerEffect (s : Page) : Result Page :=
  let statsSection := getElementById (document s) "stats-section" in
  match statsSection with
  | Some _ => observe statsSection s
  | None => Ok s
  end.

(** [defaultTheme="system"] of the ThemeProvider in src/app/layout.tsx. *)
Definition defaultTheme : string := "system".

(** The [useState] initial values, over a given document; the theme is the
    provider's default, as on a visit without a stored preference (with one,
    the host theme mechanism starts from the stored value instead). *)
Definition initial (doc : list Element) : Page :=
  mkPage (Some defaultTheme) false false (mkStats 0 0 0 0) doc false [] [] [].

Definition mount (doc : list Element) : Result Page :=
  JS.bind (scrollEffect (initial doc)) observerEffect.

(** ** Events *)

Inductive Event : Type :=
| Click_toggleDarkMode
| Click_menu                                         (* the hamburger button *)
| Click_nav (sectionId : string)                     (* any navigation button *)
| Scroll (scrollY : float)                           (* window.scrollY at the event *)
| Intersection (entries : list IntersectionObserverEntry)
| Timer (id : nat).                                  (* the interval [id] fires *)

(** What the page does when the event arrives.  A timer that was cleared, or an
    id that names no timer, runs no callback. *)
Definition dispatch (e : Event) (s : Page) : Result Page :=
  match e with
  | Click_toggleDarkMode => Ok (toggleDarkMode s)
  | Click_menu => Ok (setIsMobileMenuOpen (negb (isMobileMenuOpen s)) s)
  | Click_nav sectionId => scrollToSection sectionId s
  | Scroll scrollY => Ok (handleScroll scrollY s)
  | Intersection entries => Ok (observerCallback entries s)
  | Timer id =>
      match intervals s !! id with
      | Some t => if cleared t then Ok s else Ok (timerCallback id t s)
      | None => Ok s
      end
  end.

(** What the browser can deliver: scroll events only to a registered listener,
    intersection entries only for observed targets, timers only while active. *)
Definition deliverable (e : Event) (s : Page) : bool :=
  match e with
  | Scroll _ => scrollListening s
  | Intersection entries =>
      forallb (fun entry => existsb (Element_eqb (entry_target entry)) (observed s)) entries
  | Timer id =>
      match intervals s !! id with
      | Some t => negb (cleared t)
      | None => false
      end
  | _ => true
  end.

(** A session: the events handled in order. *)
Fixpoint session (evs : list Event) (s : Page) : Result Page :=
  match evs with
  | [] => Ok s
  | e :: evs => JS.bind (dispatch e s) (session evs)
  end.

(** Whether every event of the list is deliverable when its turn comes. *)
Fixpoint feasible (evs : list Event) (s : Page) : bool :=
  match evs with
  | [] => true
  | e :: evs =>
      deliverable e s &&
      match dispatch e s with
      | Ok s' => feasible evs s'
      | Throw _ => false
      end
  end.

(** The value of [f] after each event of the session. *)
Fixpoint history {A : Type} (f : Page -> A) (evs : list Event) (s : Page) : list A :=
  match evs with
  | [] => []
  | e :: evs =>
      match dispatch e s with
      | Ok s' => f s' :: history f evs s'
      | Throw _ => []
      end
  end.

(** ** Observations used by the statements *)

(** The host theme mechanism shows the operating system's appearance while the
    preference is "system" (the [enableSystem] provider of src/app/layout.tsx).

    Modelled from the spec: the provider (components/theme-provider, a wrapper
    of next-themes) is not under src/; the spec's Theme Controller has "an
    implied system default resolved once at load". *)
Definition resolvedTheme (systemTheme : string) (s : Page) : option string :=
  match theme s with
  | Some t => if String.eqb t "system" then Some systemTheme else Some t
  | None => None
  end.

(** The counter animation as a state machine, read off the interval table:
    no timer was ever created, some timer is still active, or all are cleared. *)
Inductive Phase : Type := Idle | Running | Done.

Definition phase (s : Page) : Phase :=
  match intervals s with
  | [] => Idle
  | ts => if forallb cleared ts then Done else Running
  end.

(** Each call of [animateStats] registers one timer per key. *)
Definition runs_started (s : Page) : nat :=
  length (intervals s) `div` length Object_keys.

(** The entries of one callback that satisfy [entry.isIntersecting]. *)
Definition intersecting (entries : list IntersectionObserverEntry) : nat :=
  length (List.filter isIntersecting entries).

Definition triggers_of (e : Event) : nat :=
  match e with
  | Intersection entries => intersecting entries
  | _ => 0
  end.

Fixpoint triggers (evs : list Event) : nat :=
  match evs with
  | [] => 0
  | e :: evs => triggers_of e + triggers evs
  end.

(** The stats section crossing the threshold into view. *)
Definition crossing : Event :=
  Intersection [mkEntry (mkElement "stats-section") true].

(** The closure of the timer of key [k] as [animateStats] creates it, and
    after [n] firings. *)
Definition closure0 (k : StatKey) : Interval :=
  mkInterval k (get targets k) (get targets k / steps)%float 0%float
             (duration / steps)%float false.

Definition closure_at (k : StatKey) (n : nat) : Interval :=
  Nat.iter n tick (closure0 k).

(** What the page displays for [k] once its timer has fired [n] times. *)
Definition shown (k : StatKey) (n : nat) : float :=
  JS.Math_floor (current (closure_at k n)).

(** The firing at which the timer of [k] clears itself. *)
Definition clampTick (k : StatKey) : nat :=
  match k with
  | K_projects | K_clients => 60
  | K_years | K_hours => 61
  end.

(** In the first run the timer of a key sits at the key's position. *)
Definition timer_index (k : StatKey) : nat :=
  match k with
  | K_projects => 0
  | K_clients => 1
  | K_years => 2
  | K_hours => 3
  end.

Definition fires (k : StatKey) (e : Event) : bool :=
  match e with
  | Timer id => Nat.eqb id (timer_index k)
  | _ => false
  end.

(** How often the timer of [k] fires in a list of events. *)
Definition ticks_of (k : StatKey) (evs : list Event) : nat :=
  length (List.filter (fires k) evs).

(** [n] rounds in which the four timers fire one after the other, as four
    intervals registered together with the same delay do. *)
Definition rounds (n : nat) : list Event :=
  concat (replicate n [Timer 0; Timer 1; Timer 2; Timer 3]).

(** The progress of a single run: how many firings each closure has seen. *)
Definition single_run (c : StatKey -> nat) (s : Page) : Prop :=
  length (intervals s) = 4 /\
  (forall k, intervals s !! timer_index k = Some (closure_at k (c k))) /\
  (forall k, c k <= clampTick k) /\
  (forall k, get (animatedStats s) k = shown k (c k)).

Definition bump (c : StatKey -> nat) (e : Event) : StatKey -> nat :=
  fun k => if fires k e then Nat.min (S (c k)) (clampTick k) else c k.

Fixpoint advance (c : StatKey -> nat) (evs : list Event) : StatKey -> nat :=
  match evs with
  | [] => c
  | e :: evs => advance (bump c e) evs
  end.

(** The facts about the four trajectories that are settled by evaluation. *)
Definition active_before_clamp (k : StatKey) : bool :=
  forallb (fun n => negb (cleared (closure_at k n))) (seq 0 (clampTick k)).

Definition monotone_until_clamp (k : StatKey) : bool :=
  forallb (fun n =>
    forallb (fun m => JS.le (shown k n) (shown k m)) (seq n (S (clampTick k) - n)))
    (seq 0 (S (clampTick k))).

(** ** Teardown and rendering *)

(** Cleanup of the first effect: [window.removeEventListener("scroll", handleScroll)]. *)
Definition scrollCleanup (s : Page) : Page := set_scrollListening false s.

(** Cleanup of the second effect: [observer.disconnect()]. *)
Definition observerCleanup (s : Page) : Page := set_observed [] s.

(** Unmounting runs the cleanups of both effects; neither calls
    [clearInterval]. *)
Definition unmount (s : Page) : Page := observerCleanup (scrollCleanup s).

(** The parts of the markup that depend on the state:
    [theme === "dark" ? <Sun/> : <Moon/>], [isMobileMenuOpen ? <X/> : <Menu/>],
    [isMobileMenuOpen && (...)] and [showWhatsApp && (...)]. *)
Inductive Icon : Type := Icon_Sun | Icon_Moon | Icon_X | Icon_Menu.

Record View : Type := mkView {
  themeIcon : Icon;
  menuIcon : Icon;
  mobileMenuShown : bool;
  whatsAppShown : bool
}.

Definition render (s : Page) : View :=
  mkView (if is_dark (theme s) then Icon_Sun else Icon_Moon)
         (if isMobileMenuOpen s then Icon_X else Icon_Menu)
         (isMobileMenuOpen s)
         (showWhatsApp s).

(** The four section ids every navigation menu offers, in order. *)
Definition menu_ids : list string := ["hero"; "services"; "about"; "contact"].

(** The click handlers the markup attaches, in document order: the desktop
    menu with its theme button, the mobile theme button and hamburger, the
    collapsible mobile menu, the call-to-action of the hero section and the
    quick links of the footer. *)
Definition buttons (s : Page) : list Event :=
  map Click_nav menu_ids ++ [Click_toggleDarkMode] ++
  [Click_toggleDarkMode; Click_menu] ++
  (if isMobileMenuOpen s then map Click_nav menu_ids else []) ++
  [Click_nav "contact"] ++
  map Click_nav menu_ids.

(** ** Summaries of a list of events *)

Definition is_toggle (e : Event) : bool :=
  match e with Click_toggleDarkMode => true | _ => false end.

Definition is_menu (e : Event) : bool :=
  match e with Click_menu => true | _ => false end.

Definition is_nav (e : Event) : bool :=
  match e with Click_nav _ => true | _ => false end.

Definition toggles (evs : list Event) : nat := length (List.filter is_toggle evs).

Definition menu_clicks (evs : list Event) : nat := length (List.filter is_menu evs).

(** The section ids of the navigation clicks, in order. *)
Fixpoint nav_clicks (evs : list Event) : list string :=
  match evs with
  | [] => []
  | Click_nav sectionId :: evs => sectionId :: nav_clicks evs
  | _ :: evs => nav_clicks evs
  end.

(** The offset of the last scroll event, if there is one. *)
Fixpoint last_scroll (evs : list Event) : option float :=
  match evs with
  | [] => None
  | e :: evs =>
      match last_scroll evs, e with
      | Some y, _ => Some y
      | None, Scroll y => Some y
      | None, _ => None
      end
  end.

(** The theme after [n] clicks on the theme button. *)
Definition theme_after (t : option string) (n : nat) : option string :=
  match n with
  | 0 => t
  | S _ => Some (if xorb (is_dark t) (Nat.odd n) then "dark" else "light")
  end.

(** ** Timers across runs *)

(** A timer of the table is the closure of its key after some number of
    firings, at most the clamping one. *)
Definition timer_ok (t : Interval) : Prop :=
  exists n, n <= clampTick (key t) /\ t = closure_at (key t) n.

(** Every timer is such a closure, and what the page displays for a key is
    what one of that key's timers has written (0 while there is no timer). *)
Definition counters_ok (s : Page) : Prop :=
  Forall timer_ok (intervals s) /\
  forall k,
    (intervals s = [] /\ get (animatedStats s) k = 0%float) \/
    (exists i n, n <= clampTick k /\
       intervals s !! i = Some (closure_at k n) /\
       get (animatedStats s) k = shown k n).

(** The running values of a key up to its clamping, checked against 0 and
    the target. *)
Definition current_in_range (k : StatKey) : bool :=
  forallb (fun n =>
    JS.le 0 (current (closure_at k n)) &&
    JS.le (current (closure_at k n)) (get targets k))
    (seq 0 (S (clampTick k))).

Definition below_before_clamp (k : StatKey) : bool :=
  forallb (fun n => PrimFloat.ltb (current (closure_at k n)) (get targets k))
    (seq 0 (clampTick k)).

(** What the source fixes for every timer, and what its callback maintains. *)
Definition timer_sound (t : Interval) : Prop :=
  target t = get targets (key t) /\
  increment t = (target t / steps)%float /\
  delay t = (duration / steps)%float /\
  JS.le 0 (current t) = true /\
  JS.le (current t) (target t) = true /\
  (cleared t = true <-> current t = target t).

(** ** Basic facts *)

Example Math_floor_values :
  map JS.Math_floor [2.5; 150; 0x1.3ffffffffffffp+2; 0.5; 0; -0.5; -2.5; -3]%float
    = [2; 150; 4; 0; 0; -1; -3; -3]%float.
Proof. reflexivity. Qed.

Example increments :
  map (fun k => increment (closure0 k)) Object_keys
    = [2.5; 0x1.a666666666666p+0; 0x1.5555555555555p-4; 0x1.999999999999ap-2]%float.
Proof. reflexivity. Qed.

Lemma dispatch_total (e : Event) (s : Page) : exists s', dispatch e s = Ok s'.
Proof.
  destruct e; simpl; eauto.
  - unfold scrollToSection, optional_call.
    destruct (getElementById (document s) sectionId); simpl; eauto.
  - destruct (intervals s !! id) as [t|]; [destruct (cleared t)|]; eauto.
Qed.

Lemma session_app (evs1 evs2 : list Event) (s : Page) :
  session (evs1 ++ evs2) s = JS.bind (session evs1 s) (session evs2).
Proof.
  revert s. induction evs1 as [|e evs1 IH]; intros s; simpl; [reflexivity|].
  destruct (dispatch e s); simpl; [apply IH | reflexivity].
Qed.

Lemma triggers_app (evs1 evs2 : list Event) :
  triggers (evs1 ++ evs2) = triggers evs1 + triggers evs2.
Proof. induction evs1; simpl; lia. Qed.

Lemma mount_ok (doc : list Element) : exists s, mount doc = Ok s.
Proof.
  unfold mount, scrollEffect, observerEffect, observe. simpl.
  destruct (getElementById doc "stats-section"); eauto.
Qed.

(** ** Theme toggle *)

Lemma is_dark_true (t : option string) : is_dark t = true <-> t = Some "dark".
Proof.
  destruct t as [t|]; simpl.
  - rewrite String.eqb_eq. split; congruence.
  - split; discriminate.
Qed.

Lemma setTheme_same (t : string) (s : Page) : theme s = Some t -> setTheme t s = s.
Proof. destruct s; simpl; intros ->; reflexivity. Qed.

Lemma setTheme_twice (t u : string) (s : Page) : setTheme t (setTheme u s) = setTheme t s.
Proof. reflexivity. Qed.

(** C6: starting from light, two toggles give light, dark, light; and on the
    two themes light and dark, toggling twice gives back the same page state. *)
Theorem C6_toggle_twice (s : Page) (Hlight : theme s = Some "light") :
  theme s :: history theme [Click_toggleDarkMode; Click_toggleDarkMode] s
    = [Some "light"; Some "dark"; Some "light"] /\
  (forall p : Page,
      theme p = Some "light" \/ theme p = Some "dark" ->
      toggleDarkMode (toggleDarkMode p) = p).
Proof.
  split.
  - simpl. unfold toggleDarkMode. simpl. rewrite Hlight. reflexivity.
  - intros p [Hp | Hp]; unfold toggleDarkMode at 2; rewrite Hp; simpl;
      unfold toggleDarkMode; simpl; rewrite setTheme_twice; now apply setTheme_same.
Qed.

Lemma C6_toggle_twice_witness :
  let s := setTheme "light" (initial rendered) in
  theme s = Some "light" /\
  theme s :: history theme [Click_toggleDarkMode; Click_toggleDarkMode] s
    = [Some "light"; Some "dark"; Some "light"].
Proof.
  split; [reflexivity|].
  apply (C6_toggle_twice (setTheme "light" (initial rendered))). reflexivity.
Defined.

(** C8, as stated, fails in its last part: the first click from the "system"
    preference is visible even when the system appearance was already dark,
    because the theme button is rendered from [theme], not from the resolved
    appearance, and its icon changes. *)
Lemma C8_first_toggle_is_visible :
  ~ (forall s : Page,
       theme s = Some "system" -> resolvedTheme "dark" s = Some "dark" ->
       render (toggleDarkMode s) = render s).
Proof.
  intros H. specialize (H (initial rendered) eq_refl eq_refl).
  vm_compute in H. discriminate.
Qed.

(** C8 (amended): from every theme value other than "dark" (undefined and
    "system" included) the toggle selects "dark", so the resolved appearance is
    dark afterwards whatever the system appearance; from the "system"
    preference with a dark system appearance the resolved appearance does not
    change, but the click is visible all the same: the icon of the theme button
    changes from the moon to the sun. *)
Theorem C8_toggle_from_non_dark (s : Page) (Hnot : theme s <> Some "dark") :
  theme (toggleDarkMode s) = Some "dark" /\
  (forall systemTheme : string,
     resolvedTheme systemTheme (toggleDarkMode s) = Some "dark") /\
  (theme s = Some "system" ->
     resolvedTheme "dark" (toggleDarkMode s) = resolvedTheme "dark" s) /\
  themeIcon (render s) = Icon_Moon /\
  themeIcon (render (toggleDarkMode s)) = Icon_Sun.
Proof.
  assert (E : is_dark (theme s) = false).
  { destruct (is_dark (theme s)) eqn:E; [|reflexivity].
    apply is_dark_true in E. contradiction. }
  unfold toggleDarkMode, render, resolvedTheme. rewrite E. simpl.
  repeat split; try reflexivity.
  intros ->. reflexivity.
Qed.

Lemma C8_toggle_from_non_dark_witness :
  let s := initial rendered in
  theme s <> Some "dark" /\
  theme (toggleDarkMode s) = Some "dark" /\
  resolvedTheme "dark" (toggleDarkMode s) = resolvedTheme "dark" s /\
  themeIcon (render s) = Icon_Moon /\
  themeIcon (render (toggleDarkMode s)) = Icon_Sun.
Proof.
  assert (H : theme (initial rendered) <> Some "dark") by (simpl; discriminate).
  destruct (C8_toggle_from_non_dark (initial rendered) H)
    as (Ht & _ & Hr & Hmoon & Hsun).
  split; [exact H|]. split; [exact Ht|]. split; [exact (Hr eq_refl)|].
  split; [exact Hmoon|exact Hsun].
Defined.

(** ** Navigation *)

(** C4: for every string, [scrollToSection] returns normally and leaves the
    mobile menu closed; when no element has that id, closing the menu is the
    only change; when one has, the scroll request for it is the only other. *)
Theorem C4_scrollToSection_total (sectionId : string) (s : Page) :
  exists s',
    scrollToSection sectionId s = Ok s' /\
    isMobileMenuOpen s' = false /\
    match getElementById (document s) sectionId with
    | None => s' = setIsMobileMenuOpen false s
    | Some el =>
        s' = setIsMobileMenuOpen false (set_scrolledIntoView (el :: scrolledIntoView s) s)
    end.
Proof.
  unfold scrollToSection, optional_call.
  destruct (getElementById (document s) sectionId) as [el|]; simpl;
    eexists; repeat split; reflexivity.
Qed.

(** ** Scroll visibility *)

Lemma session_scrolls (earlier : list float) (y : float) (s : Page) :
  exists s', session (map Scroll (earlier ++ [y])) s = Ok s' /\
             showWhatsApp s' = JS.gt y 300.
Proof.
  revert s. induction earlier as [|y0 earlier IH]; intros s; simpl.
  - eexists; split; reflexivity.
  - apply IH.
Qed.

(** C5: the scroll handler sets the visibility to [offset > 300], whatever the
    state and the offsets before; the offsets 0, 150, 320, 280 give false,
    false, true, false. *)
Theorem C5_scroll_visibility :
  (forall (y : float) (s : Page), showWhatsApp (handleScroll y s) = JS.gt y 300) /\
  (forall (earlier : list float) (y : float) (s : Page),
     exists s', session (map Scroll (earlier ++ [y])) s = Ok s' /\
                showWhatsApp s' = JS.gt y 300) /\
  (forall s : Page,
     history showWhatsApp (map Scroll [0; 150; 320; 280]%float) s
       = [false; false; true; false]).
Proof.
  split; [reflexivity|]. split; [|reflexivity].
  intros earlier y s. apply session_scrolls.
Qed.

(** C9, as stated, fails: [window.scrollY] is a number, not a whole number of
    pixels, and at the offset 300.5 the button is visible. *)
Lemma C9_fractional_offset_visible :
  ~ (forall (y : float) (s : Page),
       showWhatsApp (handleScroll y s) = true -> JS.ge y 301 = true).
Proof.
  intros H. specialize (H 300.5%float (initial rendered) eq_refl).
  vm_compute in H. discriminate.
Qed.

(** C9 (amended): the threshold is strict: at exactly 300 the button is not
    visible, and it is visible exactly at the offsets strictly greater than
    300, which are 301 and above and also the fractional offsets in between. *)
Theorem C9_strict_threshold (s : Page) :
  showWhatsApp (handleScroll 300 s) = false /\
  showWhatsApp (handleScroll 300.5 s) = true /\
  showWhatsApp (handleScroll 301 s) = true /\
  (forall y : float,
     showWhatsApp (handleScroll y s) = true <-> PrimFloat.ltb 300 y = true).
Proof.
  repeat split; try reflexivity; intros H; exact H.
Qed.

(** ** Starting the animation *)

Lemma animateStats_intervals (s : Page) :
  intervals (animateStats s) = intervals s ++ map closure0 Object_keys.
Proof.
  unfold animateStats, startCounter, setInterval. simpl.
  repeat rewrite <- app_assoc. reflexivity.
Qed.

Lemma animateStats_frame (s : Page) :
  animatedStats (animateStats s) = animatedStats s /\
  observed (animateStats s) = observed s.
Proof. split; reflexivity. Qed.

Lemma observerCallback_frame (entries : list IntersectionObserverEntry) (s : Page) :
  animatedStats (observerCallback entries s) = animatedStats s /\
  observed (observerCallback entries s) = observed s /\
  length (intervals (observerCallback entries s))
    = length (intervals s) + length Object_keys * intersecting entries.
Proof.
  revert s. unfold observerCallback, intersecting.
  induction entries as [|entry entries IH]; intros s; simpl.
  - repeat split; lia.
  - destruct (isIntersecting entry); simpl.
    + destruct (IH (animateStats s)) as (Ha & Ho & Hl).
      rewrite Ha, Ho, Hl, animateStats_intervals, length_app. simpl.
      repeat split; lia.
    + apply IH.
Qed.

Lemma observerCallback_quiet (entries : list IntersectionObserverEntry) (s : Page) :
  intersecting entries = 0 -> observerCallback entries s = s.
Proof.
  unfold observerCallback, intersecting.
  induction entries as [|entry entries IH]; simpl; [reflexivity|].
  destruct (isIntersecting entry); simpl; [discriminate | exact IH].
Qed.

Lemma timerCallback_length (id : nat) (t : Interval) (s : Page) :
  length (intervals (timerCallback id t s)) = length (intervals s).
Proof. unfold timerCallback. simpl. apply length_insert. Qed.

(** Every event adds one timer per key and per intersecting entry, and
    nothing else changes the size of the interval table. *)
Lemma dispatch_intervals (e : Event) (s : Page) :
  exists s', dispatch e s = Ok s' /\
    length (intervals s')
      = length (intervals s) + length Object_keys * triggers_of e.
Proof.
  destruct e; simpl; try (eexists; split; [reflexivity|simpl; lia]).
  - unfold scrollToSection, optional_call.
    destruct (getElementById (document s) sectionId); simpl;
      eexists; (split; [reflexivity|simpl; lia]).
  - eexists; split; [reflexivity|]. apply observerCallback_frame.
  - destruct (intervals s !! id) as [t|]; [destruct (cleared t)|];
      eexists; (split; [reflexivity|]); rewrite ?timerCallback_length;
      simpl; lia.
Qed.

Lemma session_intervals (evs : list Event) (s : Page) :
  exists s', session evs s = Ok s' /\
    length (intervals s')
      = length (intervals s) + length Object_keys * triggers evs.
Proof.
  revert s. induction evs as [|e evs IH]; intros s; simpl.
  - exists s. split; [reflexivity|lia].
  - destruct (dispatch_intervals e s) as (s1 & -> & H1). simpl.
    destruct (IH s1) as (s' & Hs & H'). exists s'. split; [exact Hs|].
    change (length Object_keys) with 4 in *. lia.
Qed.

(** An event that is no timer and carries no intersecting entry leaves the
    counters and the interval table alone. *)
Lemma dispatch_quiet (e : Event) (s : Page) :
  triggers_of e = 0 -> (forall id, e <> Timer id) ->
  exists s', dispatch e s = Ok s' /\
    animatedStats s' = animatedStats s /\ intervals s' = intervals s /\
    observed s' = observed s.
Proof.
  intros Ht Hn. destruct e; simpl in *;
    try (eexists; split; [reflexivity|]; repeat split; reflexivity).
  - unfold scrollToSection, optional_call.
    destruct (getElementById (document s) sectionId); simpl;
      eexists; (split; [reflexivity|]); repeat split; reflexivity.
  - rewrite observerCallback_quiet by exact Ht.
    eexists; split; [reflexivity|]. repeat split; reflexivity.
  - exfalso. apply (Hn id). reflexivity.
Qed.

(** While no timer exists, a timer event finds nothing to run. *)
Lemma dispatch_idle (e : Event) (s : Page) :
  triggers_of e = 0 -> intervals s = [] ->
  exists s', dispatch e s = Ok s' /\
    animatedStats s' = animatedStats s /\ intervals s' = [] /\
    observed s' = observed s.
Proof.
  intros Ht Hi. destruct e as [| | | | |id];
    try (destruct (dispatch_quiet _ s Ht) as (s' & Hd & Ha & Hi' & Ho);
         [intros id; discriminate|];
         exists s'; repeat split; try assumption; congruence).
  simpl. rewrite Hi. simpl. exists s. repeat split; assumption.
Qed.

Lemma session_idle (evs : list Event) (s : Page) :
  triggers evs = 0 -> intervals s = [] ->
  exists s', session evs s = Ok s' /\
    animatedStats s' = animatedStats s /\ intervals s' = [] /\
    observed s' = observed s.
Proof.
  revert s. induction evs as [|e evs IH]; intros s Ht Hi; simpl in *.
  - exists s. repeat split; assumption.
  - destruct (dispatch_idle e s) as (s1 & -> & Ha & Hi1 & Ho); [lia|assumption|].
    simpl. destruct (IH s1) as (s' & Hs & Ha' & Hi' & Ho'); [lia|assumption|].
    exists s'. repeat split; congruence.
Qed.

Lemma mount_state (doc : list Element) :
  exists s, mount doc = Ok s /\
    animatedStats s = mkStats 0 0 0 0 /\ intervals s = [] /\
    scrollListening s = true /\
    observed s = match getElementById doc "stats-section" with
                 | Some el => [el]
                 | None => []
                 end.
Proof.
  unfold mount, scrollEffect, observerEffect, observe. simpl.
  destruct (getElementById doc "stats-section");
    eexists; (split; [reflexivity|]); repeat split; reflexivity.
Qed.

Lemma phase_idle (s : Page) : intervals s = [] -> phase s = Idle.
Proof. unfold phase. intros ->. reflexivity. Qed.

Lemma deliverable_unobserved (e : Event) (s : Page) :
  observed s = [] -> deliverable e s = true -> triggers_of e = 0.
Proof.
  intros Ho. destruct e as [| | | |entries|]; simpl; try reflexivity.
  rewrite Ho. destruct entries as [|entry entries]; simpl; [reflexivity|discriminate].
Qed.

Lemma session_unobserved (evs : list Event) (s : Page) :
  observed s = [] -> intervals s = [] -> feasible evs s = true ->
  exists s', session evs s = Ok s' /\
    animatedStats s' = animatedStats s /\ intervals s' = [].
Proof.
  revert s. induction evs as [|e evs IH]; intros s Ho Hi Hf; simpl in *.
  - exists s. repeat split; assumption.
  - apply andb_prop in Hf as [Hd Hf].
    destruct (dispatch_idle e s) as (s1 & Hs1 & Ha & Hi1 & Ho1);
      [now apply (deliverable_unobserved e s)|assumption|].
    rewrite Hs1 in *. simpl.
    destruct (IH s1) as (s' & Hs & Ha' & Hi'); [congruence|assumption|assumption|].
    exists s'. repeat split; congruence.
Qed.

(** ** The counter state machine across a session *)

(** C1, as stated, fails: the observer callback has no guard, and a second
    crossing of the threshold starts [animateStats] a second time. *)
Lemma C1_second_crossing_starts_second_run :
  ~ (forall (evs : list Event) (s0 s' : Page),
       mount rendered = Ok s0 -> feasible evs s0 = true ->
       session evs s0 = Ok s' -> runs_started s' <= 1).
Proof.
  intros H.
  pose (s0 := set_observed [mkElement "stats-section"]
                (set_scrollListening true (initial rendered))).
  specialize (H [crossing; crossing] s0 (animateStats (animateStats s0))
                eq_refl eq_refl eq_refl).
  vm_compute in H. lia.
Qed.

(** C1 (amended): [animateStats] is started once for every intersecting entry
    the observer delivers, so the number of runs started in a session equals
    the number of such entries; in whatever phase a crossing arrives, it
    registers four further timers that start from 0. *)
Theorem C1_one_run_per_intersecting_entry (doc : list Element) (evs : list Event) :
  exists s0 s',
    mount doc = Ok s0 /\ session evs s0 = Ok s' /\
    runs_started s' = triggers evs /\
    (forall s : Page,
       dispatch crossing s = Ok (animateStats s) /\
       intervals (animateStats s) = intervals s ++ map closure0 Object_keys /\
       runs_started (animateStats s) = S (runs_started s)).
Proof.
  destruct (mount_state doc) as (s0 & Hm & _ & Hi & _).
  destruct (session_intervals evs s0) as (s' & Hs & Hl).
  exists s0, s'. repeat split; try assumption; try reflexivity.
  - unfold runs_started. rewrite Hl, Hi. simpl length.
    rewrite Nat.mul_comm. apply Nat.div_mul. discriminate.
  - apply animateStats_intervals.
  - unfold runs_started. rewrite animateStats_intervals, length_app.
    change (length (map closure0 Object_keys)) with (1 * 4).
    change (length Object_keys) with 4.
    rewrite Nat.div_add by discriminate. lia.
Qed.

(** C7: in a session without an intersecting entry the machine stays Idle and
    the four counters stay 0; and a click on the theme toggle, the menu button
    or a navigation button, or a scroll, never changes the counters or the
    timers, in any state. *)
Theorem C7_idle_without_crossing (doc : list Element) (evs : list Event)
    (Hnone : triggers evs = 0) :
  (exists s0 s',
     mount doc = Ok s0 /\ session evs s0 = Ok s' /\
     phase s' = Idle /\ animatedStats s' = mkStats 0 0 0 0) /\
  (forall (s : Page) (e : Event),
     e = Click_toggleDarkMode \/ e = Click_menu \/
     (exists sectionId, e = Click_nav sectionId) \/ (exists y, e = Scroll y) ->
     exists s', dispatch e s = Ok s' /\
       animatedStats s' = animatedStats s /\ intervals s' = intervals s).
Proof.
  split.
  - destruct (mount_state doc) as (s0 & Hm & Ha & Hi & _).
    destruct (session_idle evs s0 Hnone Hi) as (s' & Hs & Ha' & Hi' & _).
    exists s0, s'. repeat split; try assumption.
    + now apply phase_idle.
    + congruence.
  - intros s e He.
    destruct (dispatch_quiet e s) as (s' & Hd & Ha & Hi & _).
    + destruct He as [->|[->|[[x ->]|[y ->]]]]; reflexivity.
    + intros id. destruct He as [->|[->|[[x ->]|[y ->]]]]; discriminate.
    + exists s'. repeat split; assumption.
Qed.

Lemma C7_idle_without_crossing_witness :
  let evs := [Scroll 320; Click_toggleDarkMode; Click_menu; Click_nav "about";
              Intersection [mkEntry (mkElement "stats-section") false]; Timer 0] in
  triggers evs = 0 /\
  exists s0 s',
    mount rendered = Ok s0 /\ session evs s0 = Ok s' /\
    phase s' = Idle /\ animatedStats s' = mkStats 0 0 0 0.
Proof.
  split; [reflexivity|].
  apply (C7_idle_without_crossing rendered
           [Scroll 320; Click_toggleDarkMode; Click_menu; Click_nav "about";
            Intersection [mkEntry (mkElement "stats-section") false]; Timer 0]).
  reflexivity.
Defined.

(** C10: over a document without an element "stats-section" the mount effects
    return normally and observe nothing; whatever the browser then delivers,
    no timer is ever created and the four counters stay 0. *)
Theorem C10_missing_stats_section (doc : list Element)
    (Hmissing : getElementById doc "stats-section" = None) :
  exists s0,
    mount doc = Ok s0 /\ observed s0 = [] /\
    forall evs : list Event, feasible evs s0 = true ->
      exists s', session evs s0 = Ok s' /\
        phase s' = Idle /\ runs_started s' = 0 /\
        animatedStats s' = mkStats 0 0 0 0.
Proof.
  destruct (mount_state doc) as (s0 & Hm & Ha & Hi & _ & Ho).
  rewrite Hmissing in Ho. exists s0. repeat split; try assumption.
  intros evs Hf.
  destruct (session_unobserved evs s0 Ho Hi Hf) as (s' & Hs & Ha' & Hi').
  exists s'. repeat split.
  - exact Hs.
  - now apply phase_idle.
  - unfold runs_started. rewrite Hi'. reflexivity.
  - congruence.
Qed.

Lemma C10_missing_stats_section_witness :
  let doc := [mkElement "hero"; mkElement "services"; mkElement "about";
              mkElement "contact"] in
  getElementById doc "stats-section" = None /\
  exists s0, mount doc = Ok s0 /\ observed s0 = [].
Proof.
  split; [reflexivity|].
  destruct (C10_missing_stats_section
              [mkElement "hero"; mkElement "services"; mkElement "about";
               mkElement "contact"] eq_refl) as (s0 & Hm & Ho & _).
  exists s0. split; assumption.
Defined.

(** ** One run of the animation *)

Lemma active_before_clamp_ok (k : StatKey) : active_before_clamp k = true.
Proof. destruct k; vm_compute; reflexivity. Qed.

Lemma monotone_until_clamp_ok (k : StatKey) : monotone_until_clamp k = true.
Proof. destruct k; vm_compute; reflexivity. Qed.

Lemma closure_active (k : StatKey) (n : nat) :
  n < clampTick k -> cleared (closure_at k n) = false.
Proof.
  intros Hn. pose proof (active_before_clamp_ok k) as H.
  unfold active_before_clamp in H. rewrite List.forallb_forall in H.
  apply negb_true_iff, H, in_seq. lia.
Qed.

Lemma closure_clamped (k : StatKey) :
  cleared (closure_at k (clampTick k)) = true /\
  current (closure_at k (clampTick k)) = get targets k /\
  shown k (clampTick k) = get targets k.
Proof. destruct k; vm_compute; repeat split. Qed.

Lemma shown_monotone (k : StatKey) (n m : nat) :
  n <= m -> m <= clampTick k -> JS.le (shown k n) (shown k m) = true.
Proof.
  intros Hnm Hm. pose proof (monotone_until_clamp_ok k) as H.
  unfold monotone_until_clamp in H. rewrite List.forallb_forall in H.
  specialize (H n). rewrite List.forallb_forall in H.
  apply H; apply in_seq; lia.
Qed.

Lemma shown_start (k : StatKey) : shown k 0 = 0%float.
Proof. destruct k; vm_compute; reflexivity. Qed.

Lemma tick_key (t : Interval) : key (tick t) = key t.
Proof. unfold tick. destruct (JS.ge _ _); reflexivity. Qed.

Lemma closure_key (k : StatKey) (n : nat) : key (closure_at k n) = k.
Proof.
  induction n as [|n IH]; [reflexivity|].
  unfold closure_at in *. simpl. rewrite tick_key. exact IH.
Qed.

Lemma get_spread_set (prev : Stats) (k0 k : StatKey) (v : float) :
  get (spread_set prev k0 v) k = if decide (k = k0) then v else get prev k.
Proof. destruct k0, k; reflexivity. Qed.

Lemma timer_index_inj (k1 k2 : StatKey) : timer_index k1 = timer_index k2 -> k1 = k2.
Proof. destruct k1, k2; simpl; congruence. Qed.

Lemma timer_index_cases (id : nat) : (exists k, id = timer_index k) \/ 4 <= id.
Proof.
  destruct id as [|[|[|[|id]]]].
  - left. exists K_projects. reflexivity.
  - left. exists K_clients. reflexivity.
  - left. exists K_years. reflexivity.
  - left. exists K_hours. reflexivity.
  - right. lia.
Qed.

Lemma fires_timer (k0 k : StatKey) :
  fires k (Timer (timer_index k0)) = bool_decide (k = k0).
Proof. destruct k0, k; reflexivity. Qed.

Lemma single_run_ext (c c' : StatKey -> nat) (s : Page) :
  (forall k, c' k = c k) -> single_run c s -> single_run c' s.
Proof.
  intros He (Hl & Hi & Hb & Hd). repeat split; try assumption;
    intros k; rewrite He; auto.
Qed.

(** A quiet event keeps the page in the run and moves at most one closure,
    by one firing. *)
Lemma single_run_dispatch (c : StatKey -> nat) (e : Event) (s : Page) :
  single_run c s -> triggers_of e = 0 ->
  exists s', dispatch e s = Ok s' /\ single_run (bump c e) s'.
Proof.
  intros Hrun Ht.
  assert (Hnotimer : (forall id, e <> Timer id) ->
            exists s', dispatch e s = Ok s' /\ single_run (bump c e) s').
  { intros Hn. destruct (dispatch_quiet e s Ht Hn) as (s' & Hd & Ha & Hi & _).
    exists s'. split; [exact Hd|].
    destruct Hrun as (Hl & Hlk & Hb & Hsh).
    assert (Hc : forall k, bump c e k = c k).
    { intros k. unfold bump. destruct e; try reflexivity. exfalso. now apply (Hn id). }
    repeat split; try intros k; rewrite ?Hc, ?Hi, ?Ha; auto. }
  destruct e as [| | | | |id]; try (apply Hnotimer; intros id; discriminate).
  clear Hnotimer. destruct Hrun as (Hl & Hlk & Hb & Hsh). simpl.
  destruct (timer_index_cases id) as [[k0 ->]|Hge].
  - rewrite Hlk. destruct (cleared (closure_at k0 (c k0))) eqn:Hc.
    + (* already cleared: the closure has reached its last firing *)
      assert (c k0 = clampTick k0) as Hk0.
      { destruct (Nat.lt_ge_cases (c k0) (clampTick k0)) as [Hlt|Hge'].
        - rewrite (closure_active k0 _ Hlt) in Hc. discriminate.
        - specialize (Hb k0). lia. }
      exists s. split; [reflexivity|].
      apply (single_run_ext c); [|repeat split; assumption].
      intros k. unfold bump. rewrite fires_timer.
      case_bool_decide; [subst k; lia|reflexivity].
    + assert (c k0 < clampTick k0) as Hk0.
      { destruct (Nat.lt_ge_cases (c k0) (clampTick k0)) as [Hlt|Hge']; [exact Hlt|].
        assert (c k0 = clampTick k0) as E by (specialize (Hb k0); lia).
        rewrite E in Hc. rewrite (proj1 (closure_clamped k0)) in Hc. discriminate. }
      eexists. split; [reflexivity|].
      assert (Hb' : forall k, bump c (Timer (timer_index k0)) k
                      = if decide (k = k0) then S (c k0) else c k).
      { intros k. unfold bump. rewrite fires_timer.
        case_bool_decide; destruct (decide (k = k0)); try contradiction;
          [subst k; lia | reflexivity]. }
      unfold timerCallback. cbv zeta.
      change (tick (closure_at k0 (c k0))) with (closure_at k0 (S (c k0))).
      pose proof (closure_key k0 (S (c k0))) as Hkey.
      set (t' := closure_at k0 (S (c k0))) in *. repeat split; simpl.
      * rewrite length_insert. exact Hl.
      * intros k. rewrite Hb'. destruct (decide (k = k0)) as [->|Hne].
        -- apply list_lookup_insert_eq. apply lookup_lt_Some with (1 := Hlk k0).
        -- rewrite list_lookup_insert_ne; [apply Hlk|].
           intros E. apply timer_index_inj in E. congruence.
      * intros k. rewrite Hb'. destruct (decide (k = k0)) as [->|Hne]; [lia|apply Hb].
      * intros k. rewrite Hb', Hkey, get_spread_set.
        destruct (decide (k = k0)) as [->|Hne]; [reflexivity|apply Hsh].
  - rewrite lookup_ge_None_2 by lia.
    exists s. split; [reflexivity|].
    apply (single_run_ext c); [|repeat split; assumption].
    intros k. unfold bump. simpl.
    destruct (Nat.eqb_spec id (timer_index k)) as [E|_]; [|reflexivity].
    destruct k; simpl in E; lia.
Qed.

Lemma single_run_session (c : StatKey -> nat) (evs : list Event) (s : Page) :
  single_run c s -> triggers evs = 0 ->
  exists s', session evs s = Ok s' /\ single_run (advance c evs) s'.
Proof.
  revert c s. induction evs as [|e evs IH]; intros c s Hrun Ht; simpl in *.
  - exists s. split; [reflexivity|exact Hrun].
  - destruct (single_run_dispatch c e s Hrun) as (s1 & -> & Hrun1); [lia|].
    simpl. apply IH; [exact Hrun1|lia].
Qed.

Lemma advance_ticks (c : StatKey -> nat) (evs : list Event) (k : StatKey) :
  c k <= clampTick k ->
  advance c evs k = Nat.min (c k + ticks_of k evs) (clampTick k).
Proof.
  revert c. induction evs as [|e evs IH]; intros c Hc; simpl.
  - unfold ticks_of. simpl. lia.
  - assert (Hb : bump c e k <= clampTick k)
      by (unfold bump; destruct (fires k e); lia).
    rewrite (IH _ Hb). unfold bump, ticks_of. cbn [List.filter].
    destruct (fires k e); cbn [length]; lia.
Qed.

(** The page right after the first crossing is at the start of a run. *)
Lemma single_run_start (s : Page) :
  intervals s = [] -> animatedStats s = mkStats 0 0 0 0 ->
  single_run (fun _ => 0) (animateStats s).
Proof.
  intros Hi Ha. repeat split.
  - rewrite animateStats_intervals, Hi. reflexivity.
  - intros k. rewrite animateStats_intervals, Hi. destruct k; reflexivity.
  - intros k. lia.
  - intros k. rewrite (proj1 (animateStats_frame s)), Ha, shown_start.
    destruct k; reflexivity.
Qed.

(** C2: in one run, for each of the four counters: the display starts at 0;
    a later display is never below an earlier one; what is displayed is the
    floor of the running value of the counter's timer; and once the timer has
    fired [clampTick] times (60 for projects and clients, 61 for years and
    hours) it is cleared and the display is exactly the target (150, 99, 5,
    24), and stays there. *)
Theorem C2_counter_run (k : StatKey) (before run1 run2 : list Event)
    (Hbefore : triggers before = 0)
    (Hrun1 : triggers run1 = 0) (Hrun2 : triggers run2 = 0) :
  exists s s0 s1 s2 t1,
    mount rendered = Ok s /\
    session (before ++ [crossing]) s = Ok s0 /\
    session run1 s0 = Ok s1 /\
    session run2 s1 = Ok s2 /\
    get (animatedStats s0) k = 0%float /\
    JS.le (get (animatedStats s0) k) (get (animatedStats s1) k) = true /\
    JS.le (get (animatedStats s1) k) (get (animatedStats s2) k) = true /\
    intervals s1 !! timer_index k = Some t1 /\
    t1 = closure_at k (Nat.min (ticks_of k run1) (clampTick k)) /\
    get (animatedStats s1) k = JS.Math_floor (current t1) /\
    (ticks_of k run1 < clampTick k -> cleared t1 = false) /\
    (clampTick k <= ticks_of k run1 ->
       cleared t1 = true /\
       get (animatedStats s1) k = get targets k /\
       get (animatedStats s2) k = get targets k) /\
    targets = mkStats 150 99 5 24.
Proof.
  destruct (mount_state rendered) as (s & Hm & Ha & Hi & _).
  destruct (session_idle before s Hbefore Hi) as (sa & Hsa & Ha' & Hi' & _).
  rewrite Ha in Ha'.
  pose proof (single_run_start sa Hi' Ha') as Hrun0.
  destruct (single_run_session _ run1 _ Hrun0 Hrun1) as (s1 & Hs1 & Hr1).
  destruct (single_run_session _ run2 _ Hr1 Hrun2) as (s2 & Hs2 & Hr2).
  set (c1 := advance (fun _ => 0) run1) in *.
  assert (Hc1 : c1 k = Nat.min (ticks_of k run1) (clampTick k)).
  { unfold c1. rewrite advance_ticks by lia. reflexivity. }
  destruct Hr1 as (_ & Hlk1 & Hb1 & Hd1).
  assert (Hc2 : advance c1 run2 k
                = Nat.min (c1 k + ticks_of k run2) (clampTick k)).
  { apply advance_ticks, Hb1. }
  destruct Hr2 as (_ & _ & Hb2 & Hd2).
  destruct Hrun0 as (_ & _ & _ & Hd0).
  exists s, (animateStats sa), s1, s2, (closure_at k (c1 k)).
  split; [exact Hm|].
  split; [rewrite session_app, Hsa; reflexivity|].
  split; [exact Hs1|]. split; [exact Hs2|].
  split; [rewrite Hd0; apply shown_start|].
  split; [rewrite Hd0, Hd1; apply shown_monotone; [lia|apply Hb1]|].
  split; [rewrite Hd1, Hd2; apply shown_monotone; [rewrite Hc2; specialize (Hb1 k); lia|apply Hb2]|].
  split; [apply Hlk1|].
  split; [rewrite Hc1; reflexivity|].
  split; [apply Hd1|].
  split; [intros Hlt; apply closure_active; lia|].
  split; [|reflexivity].
  intros Hge.
  assert (E1 : c1 k = clampTick k) by lia.
  assert (E2 : advance c1 run2 k = clampTick k) by lia.
  rewrite Hd1, Hd2, E1, E2.
  destruct (closure_clamped k) as (Hcl & _ & Hsh). auto.
Qed.

Lemma C2_counter_run_witness :
  let before := [Scroll 150; Click_menu] in
  let run1 := rounds 30 in
  let run2 := Scroll 320 :: rounds 31 in
  triggers before = 0 /\ triggers run1 = 0 /\ triggers run2 = 0 /\
  exists s s0 s1 s2,
    mount rendered = Ok s /\
    session (before ++ [crossing]) s = Ok s0 /\
    session run1 s0 = Ok s1 /\
    session run2 s1 = Ok s2 /\
    get (animatedStats s0) K_years = 0%float /\
    JS.le (get (animatedStats s1) K_years) (get (animatedStats s2) K_years) = true.
Proof.
  repeat (split; [reflexivity|]).
  destruct (C2_counter_run K_years [Scroll 150; Click_menu] (rounds 30)
              (Scroll 320 :: rounds 31) eq_refl eq_refl eq_refl)
    as (s & s0 & s1 & s2 & t1 & Hm & H0 & H1 & H2 & Hz & _ & Hle & _).
  exists s, s0, s1, s2. repeat split; assumption.
Defined.

(** C3: evaluation of one run in which the four timers fire in turn.  After 60
    firings each, the counters of projects and clients have clamped, while the
    running values of years and hours are still below their targets: the page
    shows 150, 99, 4, 23 and two timers are active.  The 61st firing clamps
    them.  No display ever exceeds its target, in whatever order the timers
    fire. *)
Theorem C3_years_and_hours_clamp_at_tick_61 :
  exists s s0 s60 s61,
    mount rendered = Ok s /\ session [crossing] s = Ok s0 /\
    session (rounds 60) s0 = Ok s60 /\ session (rounds 61) s0 = Ok s61 /\
    animatedStats s60 = mkStats 150 99 4 23 /\
    map cleared (intervals s60) = [true; true; false; false] /\
    map current (intervals s60)
      = [150; 99; 0x1.3ffffffffffffp+2; 0x1.7fffffffffffap+4]%float /\
    animatedStats s61 = mkStats 150 99 5 24 /\
    map cleared (intervals s61) = [true; true; true; true] /\
    (forall (run : list Event) (k : StatKey), triggers run = 0 ->
       exists s', session run s0 = Ok s' /\
         JS.le (get (animatedStats s') k) (get targets k) = true).
Proof.
  pose (s := set_observed [mkElement "stats-section"]
               (set_scrollListening true (initial rendered))).
  exists s, (animateStats s). do 2 eexists.
  repeat (split; [vm_compute; reflexivity|]).
  intros run k Hrun.
  assert (Hstart : single_run (fun _ => 0) (animateStats s))
    by (apply single_run_start; reflexivity).
  destruct (single_run_session _ run _ Hstart Hrun) as (s' & Hs' & _ & _ & Hb & Hd).
  exists s'. split; [exact Hs'|].
  rewrite Hd, <- (proj2 (proj2 (closure_clamped k))).
  apply shown_monotone; [apply Hb|lia].
Qed.

(** A crossing that arrives after the run is Done starts the counters again:
    the display of projects falls from 150 back to 2. *)
Example crossing_after_done_restarts :
  exists s s1 s2,
    mount rendered = Ok s /\
    session (crossing :: rounds 61) s = Ok s1 /\
    phase s1 = Done /\ animatedStats s1 = mkStats 150 99 5 24 /\
    feasible [crossing; Timer 4] s1 = true /\
    session [crossing; Timer 4] s1 = Ok s2 /\
    phase s2 = Running /\ runs_started s2 = 2 /\
    animatedStats s2 = mkStats 2 99 5 24.
Proof.
  do 3 eexists. repeat (split; [vm_compute; reflexivity|]).
  vm_compute; reflexivity.
Qed.

(** ** What each event changes *)

Lemma animateStats_only_intervals (s : Page) :
  animateStats s = set_intervals (intervals (animateStats s)) s.
Proof. reflexivity. Qed.

Lemma observerCallback_only_intervals (entries : list IntersectionObserverEntry) (s : Page) :
  observerCallback entries s = set_intervals (intervals (observerCallback entries s)) s.
Proof.
  revert s. unfold observerCallback.
  induction entries as [|entry entries IH]; intros s; simpl.
  - destruct s; reflexivity.
  - destruct (isIntersecting entry); [|apply IH].
    rewrite IH. rewrite animateStats_only_intervals at 2. reflexivity.
Qed.

(** The effect of one event on the fields that are not the counters. *)
Lemma dispatch_ui (e : Event) (s : Page) :
  exists s', dispatch e s = Ok s' /\
    theme s' = match e with
               | Click_toggleDarkMode => theme (toggleDarkMode s)
               | _ => theme s
               end /\
    showWhatsApp s' = match e with
                      | Scroll y => JS.gt y 300
                      | _ => showWhatsApp s
                      end /\
    isMobileMenuOpen s' = match e with
                          | Click_menu => negb (isMobileMenuOpen s)
                          | Click_nav _ => false
                          | _ => isMobileMenuOpen s
                          end /\
    scrolledIntoView s' = match e with
                          | Click_nav sectionId =>
                              match getElementById (document s) sectionId with
                              | Some el => el :: scrolledIntoView s
                              | None => scrolledIntoView s
                              end
                          | _ => scrolledIntoView s
                          end /\
    document s' = document s /\
    scrollListening s' = scrollListening s /\
    observed s' = observed s.
Proof.
  destruct e as [| |sectionId|y|entries|id]; simpl;
    try (eexists; split; [reflexivity|]; repeat split; reflexivity).
  - unfold scrollToSection, optional_call.
    destruct (getElementById (document s) sectionId); simpl;
      eexists; (split; [reflexivity|]); repeat split; reflexivity.
  - eexists; split; [reflexivity|].
    rewrite observerCallback_only_intervals. repeat split; reflexivity.
  - destruct (intervals s !! id) as [t|]; [destruct (cleared t)|];
      eexists; (split; [reflexivity|]); repeat split; reflexivity.
Qed.

(** ** The theme across a session *)

Lemma theme_after_step (t : option string) (n : nat) :
  theme_after (Some (if is_dark t then "light" else "dark")) n = theme_after t (S n).
Proof.
  destruct n as [|m].
  - simpl. destruct (is_dark t); reflexivity.
  - unfold theme_after. f_equal.
    replace (Nat.odd (S (S m))) with (Nat.odd m) by reflexivity.
    rewrite Nat.odd_succ, <- Nat.negb_odd.
    destruct (is_dark t), (Nat.odd m); reflexivity.
Qed.

(** X1: whatever else happens in a session, the theme at its end is decided by
    the theme at its start and the number of clicks on the theme button:
    unchanged without a click, otherwise "dark" or "light" by the parity of the
    clicks; after the first click it is never "system" (or undefined) again. *)
Theorem theme_after_session (evs : list Event) (s : Page) :
  exists s', session evs s = Ok s' /\
    theme s' = theme_after (theme s) (toggles evs) /\
    (toggles evs = 0 \/ theme s' = Some "light" \/ theme s' = Some "dark").
Proof.
  assert (H : exists s', session evs s = Ok s' /\
                theme s' = theme_after (theme s) (toggles evs)).
  { revert s. induction evs as [|e evs IH]; intros s; simpl.
    - exists s. split; reflexivity.
    - destruct (dispatch_ui e s) as (s1 & -> & Ht & _). simpl.
      destruct (IH s1) as (s' & Hs & Ht'). exists s'. split; [exact Hs|].
      rewrite Ht', Ht. unfold toggles. destruct e; try reflexivity.
      cbn [List.filter is_toggle length]. apply theme_after_step. }
  destruct H as (s' & Hs & Ht). exists s'. repeat split; try assumption.
  rewrite Ht. destruct (toggles evs) as [|n]; [left; reflexivity|right].
  unfold theme_after. destruct (xorb _ _); auto.
Qed.

(** X2: the icon of the theme button is the sun exactly when the theme is
    "dark"; every click on the button flips the icon and two clicks bring it
    back, from any theme, "system" and undefined included. *)
Theorem theme_icon_flips (s : Page) :
  (themeIcon (render s) = Icon_Sun <-> theme s = Some "dark") /\
  themeIcon (render (toggleDarkMode s)) <> themeIcon (render s) /\
  themeIcon (render (toggleDarkMode (toggleDarkMode s))) = themeIcon (render s).
Proof.
  unfold render, toggleDarkMode. simpl. split; [|split].
  - rewrite <- is_dark_true. destruct (is_dark (theme s)); split; congruence.
  - destruct (is_dark (theme s)); simpl; discriminate.
  - destruct (is_dark (theme s)); reflexivity.
Qed.

(** ** The mobile menu across a session *)

Lemma menu_without_navigation (evs : list Event) (s : Page) :
  nav_clicks evs = [] ->
  exists s', session evs s = Ok s' /\
    isMobileMenuOpen s' = xorb (isMobileMenuOpen s) (Nat.odd (menu_clicks evs)).
Proof.
  revert s. induction evs as [|e evs IH]; intros s Hn; simpl.
  - exists s. split; [reflexivity|]. unfold menu_clicks. simpl.
    now rewrite xorb_false_r.
  - destruct (dispatch_ui e s) as (s1 & -> & _ & _ & Hm & _). simpl.
    assert (Hn' : nav_clicks evs = []) by (destruct e; simpl in Hn; congruence).
    destruct (IH s1 Hn') as (s' & Hs & Hm'). exists s'. split; [exact Hs|].
    rewrite Hm', Hm. unfold menu_clicks.
    destruct e; try reflexivity; [|discriminate].
    cbn [List.filter is_menu length].
    set (n := length (List.filter is_menu evs)).
    rewrite Nat.odd_succ, <- Nat.negb_odd.
    destruct (isMobileMenuOpen s), (Nat.odd n); reflexivity.
Qed.

(** X3: the hamburger button toggles the mobile menu and every navigation
    click closes it: over events without a navigation click the menu ends open
    or closed by the parity of the hamburger clicks, and after a navigation
    click it is open exactly when the hamburger was clicked an odd number of
    times since, whatever the state before. *)
Theorem menu_after_navigation (since : list Event) (Hsince : nav_clicks since = []) :
  (forall s : Page,
     exists s', session since s = Ok s' /\
       isMobileMenuOpen s' = xorb (isMobileMenuOpen s) (Nat.odd (menu_clicks since))) /\
  (forall (before : list Event) (sectionId : string) (s : Page),
     exists s', session (before ++ Click_nav sectionId :: since) s = Ok s' /\
       isMobileMenuOpen s' = Nat.odd (menu_clicks since) /\
       mobileMenuShown (render s') = Nat.odd (menu_clicks since)).
Proof.
  split; [intros s; now apply menu_without_navigation|].
  intros before sectionId s. rewrite session_app.
  destruct (theme_after_session before s) as (s1 & -> & _).
  cbn [JS.bind session].
  destruct (dispatch_ui (Click_nav sectionId) s1) as (s2 & -> & _ & _ & Hm & _).
  cbn [JS.bind]. destruct (menu_without_navigation since s2 Hsince) as (s' & Hs & Hm').
  exists s'. rewrite Hm in Hm'. simpl in Hm'. repeat split; assumption.
Qed.

Lemma menu_after_navigation_witness :
  let since := [Click_menu; Scroll 320; Click_menu; Click_menu] in
  nav_clicks since = [] /\
  exists s', session ([Click_menu] ++ Click_nav "about" :: since) (initial rendered) = Ok s' /\
    isMobileMenuOpen s' = true.
Proof.
  split; [reflexivity|].
  destruct (menu_after_navigation [Click_menu; Scroll 320; Click_menu; Click_menu] eq_refl)
    as [_ H].
  destruct (H [Click_menu] "about"%string (initial rendered)) as (s' & Hs & Hm & _).
  exists s'. split; assumption.
Defined.

(** ** The WhatsApp button across a session *)

(** X4: at the end of any session the WhatsApp button is rendered exactly when
    the last scroll event reported an offset above 300; clicks, intersection
    entries and timers never change it, and without a scroll event it is as
    at the start. *)
Theorem whatsapp_after_session (evs : list Event) (s : Page) :
  exists s', session evs s = Ok s' /\
    whatsAppShown (render s') = match last_scroll evs with
                                | Some y => JS.gt y 300
                                | None => showWhatsApp s
                                end.
Proof.
  change (exists s', session evs s = Ok s' /\
            showWhatsApp s' = match last_scroll evs with
                              | Some y => JS.gt y 300
                              | None => showWhatsApp s
                              end).
  revert s. induction evs as [|e evs IH]; intros s.
  - exists s. split; reflexivity.
  - cbn [session last_scroll].
    destruct (dispatch_ui e s) as (s1 & -> & _ & Hw & _). cbn [JS.bind].
    destruct (IH s1) as (s' & Hs & Hw'). exists s'. split; [exact Hs|].
    rewrite Hw'. destruct (last_scroll evs); [reflexivity|].
    rewrite Hw. destruct e; reflexivity.
Qed.

(** ** Scroll requests *)

(** X5: the scroll requests a session issues are exactly its navigation clicks
    whose id names an element of the document, in the order of the clicks (the
    log is latest first); a click on an id without element issues none, and no
    event changes the document. *)
Theorem scroll_requests_of_session (evs : list Event) (s : Page) :
  exists s', session evs s = Ok s' /\
    document s' = document s /\
    scrolledIntoView s'
      = rev (omap (getElementById (document s)) (nav_clicks evs)) ++ scrolledIntoView s.
Proof.
  revert s. induction evs as [|e evs IH]; intros s; simpl.
  - exists s. repeat split; reflexivity.
  - destruct (dispatch_ui e s) as (s1 & -> & _ & _ & _ & Hv & Hd & _). simpl.
    destruct (IH s1) as (s' & Hs & Hd' & Hv'). exists s'.
    split; [exact Hs|]. split; [congruence|].
    rewrite Hv', Hv, Hd. destruct e; try reflexivity.
    simpl. destruct (getElementById (document s) sectionId); [|reflexivity].
    simpl. rewrite <- app_assoc. reflexivity.
Qed.

(** X6: on the rendered document every navigation button the markup offers,
    in the desktop menu, the mobile menu, the hero section and the footer,
    names an existing section: the click requests a scroll to the element
    with that id and closes the mobile menu. *)
Theorem nav_buttons_reach_sections (s : Page) (sectionId : string)
    (Hdoc : document s = rendered)
    (Hbutton : In (Click_nav sectionId) (buttons s)) :
  exists el,
    getElementById (document s) sectionId = Some el /\
    el_id el = sectionId /\
    scrollToSection sectionId s
      = Ok (setIsMobileMenuOpen false (set_scrolledIntoView (el :: scrolledIntoView s) s)).
Proof.
  assert (Hid : In sectionId menu_ids).
  { unfold buttons in Hbutton. destruct (isMobileMenuOpen s); simpl in Hbutton;
      repeat (destruct Hbutton as [Hbutton|Hbutton];
              [try discriminate; injection Hbutton as <-; simpl; tauto|]);
      contradiction. }
  unfold scrollToSection, optional_call. rewrite Hdoc.
  simpl in Hid. destruct Hid as [<-|[<-|[<-|[<-|[]]]]];
    eexists; repeat split; reflexivity.
Qed.

Lemma nav_buttons_reach_sections_witness :
  let s := setIsMobileMenuOpen true (initial rendered) in
  document s = rendered /\ In (Click_nav "services") (buttons s) /\
  exists el, getElementById (document s) "services" = Some el /\ el_id el = "services"%string.
Proof.
  assert (Hin : In (Click_nav "services")
                   (buttons (setIsMobileMenuOpen true (initial rendered))))
    by (simpl; tauto).
  split; [reflexivity|]. split; [exact Hin|].
  destruct (nav_buttons_reach_sections (setIsMobileMenuOpen true (initial rendered))
              "services" eq_refl Hin) as (el & Hg & Hi & _).
  exists el. split; assumption.
Defined.

(** ** Timers across runs *)

Lemma current_in_range_ok (k : StatKey) : current_in_range k = true.
Proof. destruct k; vm_compute; reflexivity. Qed.

Lemma below_before_clamp_ok (k : StatKey) : below_before_clamp k = true.
Proof. destruct k; vm_compute; reflexivity. Qed.

Lemma tick_constants (t : Interval) :
  target (tick t) = target t /\ increment (tick t) = increment t /\
  delay (tick t) = delay t.
Proof. unfold tick. destruct (JS.ge _ _); repeat split; reflexivity. Qed.

Lemma closure_constants (k : StatKey) (n : nat) :
  target (closure_at k n) = get targets k /\
  increment (closure_at k n) = (get targets k / steps)%float /\
  delay (closure_at k n) = (duration / steps)%float.
Proof.
  induction n as [|n IH]; [repeat split; reflexivity|].
  change (closure_at k (S n)) with (tick (closure_at k n)).
  destruct (tick_constants (closure_at k n)) as (-> & -> & ->). exact IH.
Qed.

Lemma closure_cleared_last (k : StatKey) (n : nat) :
  n <= clampTick k -> cleared (closure_at k n) = true -> n = clampTick k.
Proof.
  intros Hn Hc. destruct (Nat.lt_ge_cases n (clampTick k)) as [Hlt|Hge]; [|lia].
  rewrite (closure_active k n Hlt) in Hc. discriminate.
Qed.

Lemma closure_sound (k : StatKey) (n : nat) :
  n <= clampTick k -> timer_sound (closure_at k n).
Proof.
  intros Hn. destruct (closure_constants k n) as (Ht & Hi & Hd).
  unfold timer_sound. rewrite closure_key, Ht.
  pose proof (current_in_range_ok k) as Hr. unfold current_in_range in Hr.
  rewrite List.forallb_forall in Hr. specialize (Hr n).
  destruct (andb_prop _ _ (Hr ltac:(apply in_seq; lia))) as [H0 H1].
  repeat split; try assumption.
  - intros Hc. apply closure_cleared_last in Hc; [|exact Hn]. subst n.
    apply closure_clamped.
  - intros Hc. destruct (Nat.lt_ge_cases n (clampTick k)) as [Hlt|Hge].
    + pose proof (below_before_clamp_ok k) as Hb. unfold below_before_clamp in Hb.
      rewrite List.forallb_forall in Hb. specialize (Hb n ltac:(apply in_seq; lia)).
      rewrite Hc in Hb. destruct k; vm_compute in Hb; discriminate.
    + replace n with (clampTick k) by lia. apply closure_clamped.
Qed.

Lemma timerCallback_fields (id : nat) (t : Interval) (s : Page) :
  intervals (timerCallback id t s) = <[id := tick t]> (intervals s) /\
  animatedStats (timerCallback id t s)
    = spread_set (animatedStats s) (key (tick t)) (JS.Math_floor (current (tick t))).
Proof. split; reflexivity. Qed.

Lemma counters_ok_animateStats (s : Page) : counters_ok s -> counters_ok (animateStats s).
Proof.
  intros [Hall Hshow]. split.
  - rewrite animateStats_intervals. apply Forall_app. split; [exact Hall|].
    repeat constructor; exists 0; (split; [simpl; lia|reflexivity]).
  - intros k. right. rewrite animateStats_intervals.
    rewrite (proj1 (animateStats_frame s)).
    destruct (Hshow k) as [[Hnil Hz]|(i & n & Hn & Hi & Hd)].
    + exists (timer_index k), 0. rewrite Hnil, Hz, shown_start.
      split; [lia|]. split; [destruct k; reflexivity|reflexivity].
    + exists i, n. split; [exact Hn|]. split; [|exact Hd].
      now apply lookup_app_l_Some.
Qed.

Lemma counters_ok_observerCallback (entries : list IntersectionObserverEntry) (s : Page) :
  counters_ok s -> counters_ok (observerCallback entries s).
Proof.
  revert s. unfold observerCallback.
  induction entries as [|entry entries IH]; intros s Hok; simpl; [exact Hok|].
  destruct (isIntersecting entry); apply IH; [now apply counters_ok_animateStats|exact Hok].
Qed.

Lemma counters_ok_timerCallback (id : nat) (t : Interval) (s : Page) :
  counters_ok s -> intervals s !! id = Some t -> cleared t = false ->
  counters_ok (timerCallback id t s).
Proof.
  intros [Hall Hshow] Hid Hc.
  assert (Ht : timer_ok t).
  { rewrite Forall_forall in Hall. apply Hall. eapply list_elem_of_lookup_2, Hid. }
  destruct Ht as (n & Hn & Et). set (k := key t) in *.
  assert (Hlt : n < clampTick k).
  { destruct (Nat.lt_ge_cases n (clampTick k)) as [Hlt|Hge]; [exact Hlt|].
    replace n with (clampTick k) in Et by lia.
    rewrite Et, (proj1 (closure_clamped k)) in Hc. discriminate. }
  assert (Etick : tick t = closure_at k (S n)) by (rewrite Et; reflexivity).
  destruct (timerCallback_fields id t s) as [Ei Ea].
  split.
  - rewrite Ei. apply Forall_insert; [exact Hall|].
    rewrite Etick. exists (S n). rewrite closure_key. split; [lia|reflexivity].
  - intros k1. right. rewrite Ei, Ea, Etick, closure_key, get_spread_set.
    destruct (decide (k1 = k)) as [->|Hne].
    + exists id, (S n). split; [lia|]. split; [|reflexivity].
      apply list_lookup_insert_eq. now apply lookup_lt_Some with (1 := Hid).
    + destruct (Hshow k1) as [[Hnil _]|(i & n1 & Hn1 & Hi & Hd)].
      * rewrite Hnil in Hid. discriminate.
      * exists i, n1. split; [exact Hn1|]. split; [|exact Hd].
        rewrite list_lookup_insert_ne; [exact Hi|].
        intros <-. rewrite Hid in Hi. injection Hi as Ei'.
        apply Hne. unfold k. rewrite Ei'. symmetry. apply closure_key.
Qed.

Lemma counters_ok_dispatch (e : Event) (s : Page) :
  counters_ok s -> exists s', dispatch e s = Ok s' /\ counters_ok s'.
Proof.
  intros Hok.
  assert (Hq : triggers_of e = 0 -> (forall id, e <> Timer id) ->
               exists s', dispatch e s = Ok s' /\ counters_ok s').
  { intros Ht Hn. destruct (dispatch_quiet e s Ht Hn) as (s' & Hd & Ha & Hi & _).
    exists s'. split; [exact Hd|]. unfold counters_ok. rewrite Ha, Hi. exact Hok. }
  destruct e as [| | | |entries|id];
    try (apply Hq; [reflexivity|intros id; discriminate]).
  - simpl. eexists. split; [reflexivity|]. now apply counters_ok_observerCallback.
  - simpl. destruct (intervals s !! id) as [t|] eqn:Hid;
      [destruct (cleared t) eqn:Hc|]; eexists; (split; [reflexivity|]);
      try exact Hok.
    now apply counters_ok_timerCallback.
Qed.

Lemma counters_ok_session (evs : list Event) (s : Page) :
  counters_ok s -> exists s', session evs s = Ok s' /\ counters_ok s'.
Proof.
  revert s. induction evs as [|e evs IH]; intros s Hok; simpl.
  - exists s. split; [reflexivity|exact Hok].
  - destruct (counters_ok_dispatch e s Hok) as (s1 & -> & Hok1). simpl.
    apply IH, Hok1.
Qed.

Lemma counters_ok_mount (doc : list Element) :
  exists s, mount doc = Ok s /\ counters_ok s.
Proof.
  destruct (mount_state doc) as (s & Hm & Ha & Hi & _).
  exists s. split; [exact Hm|]. split.
  - rewrite Hi. constructor.
  - intros k. left. rewrite Hi, Ha. split; [reflexivity|destruct k; reflexivity].
Qed.

Lemma counters_ok_reachable (doc : list Element) (evs : list Event) :
  exists s0 s', mount doc = Ok s0 /\ session evs s0 = Ok s' /\ counters_ok s'.
Proof.
  destruct (counters_ok_mount doc) as (s0 & Hm & Hok).
  destruct (counters_ok_session evs s0 Hok) as (s' & Hs & Hok').
  exists s0, s'. split; [exact Hm|]. split; [exact Hs|exact Hok'].
Qed.

(** X7: in every session, with any number of crossings and the timers of
    overlapping runs firing in any order, what the page displays for a counter
    is never below 0 and never above the counter's target. *)
Theorem display_within_bounds (doc : list Element) (evs : list Event) :
  exists s0 s',
    mount doc = Ok s0 /\ session evs s0 = Ok s' /\
    forall k,
      JS.le 0 (get (animatedStats s') k) = true /\
      JS.le (get (animatedStats s') k) (get targets k) = true.
Proof.
  destruct (counters_ok_reachable doc evs) as (s0 & s' & Hm & Hs & _ & Hshow).
  exists s0, s'. split; [exact Hm|]. split; [exact Hs|]. intros k.
  destruct (Hshow k) as [[_ ->]|(i & n & Hn & _ & ->)].
  - destruct k; split; reflexivity.
  - split.
    + rewrite <- (shown_start k). apply shown_monotone; [lia|exact Hn].
    + rewrite <- (proj2 (proj2 (closure_clamped k))).
      apply shown_monotone; [exact Hn|lia].
Qed.

(** X8: every timer found in the interval table of any session still has the
    constants [animateStats] gave it (the target of its key, the increment
    target/60, the delay 2000/60); its running value lies between 0 and its
    target; and it is cleared exactly when its running value is its target. *)
Theorem timers_sound_in_every_session (doc : list Element) (evs : list Event) :
  exists s0 s',
    mount doc = Ok s0 /\ session evs s0 = Ok s' /\
    Forall timer_sound (intervals s').
Proof.
  destruct (counters_ok_reachable doc evs) as (s0 & s' & Hm & Hs & Hall & _).
  exists s0, s'. split; [exact Hm|]. split; [exact Hs|].
  eapply Forall_impl; [exact Hall|].
  intros t (n & Hn & Et). rewrite Et. now apply closure_sound.
Qed.

(** X9: whenever all timers of the table are cleared, the page displays
    exactly the four targets, however many runs were started and however
    their timers interleaved. *)
Theorem all_cleared_shows_targets (doc : list Element) (evs : list Event)
    (s0 s' : Page)
    (Hmount : mount doc = Ok s0) (Hsession : session evs s0 = Ok s')
    (Hdone : phase s' = Done) :
  animatedStats s' = targets.
Proof.
  destruct (counters_ok_reachable doc evs) as (s0' & s'' & Hm & Hs & _ & Hshow).
  rewrite Hmount in Hm. injection Hm as <-.
  rewrite Hsession in Hs. injection Hs as <-.
  assert (Hk : forall k, get (animatedStats s') k = get targets k).
  { intros k. unfold phase in Hdone.
    destruct (Hshow k) as [[Hnil _]|(i & n & Hn & Hi & ->)].
    - rewrite Hnil in Hdone. discriminate.
    - destruct (intervals s') as [|t0 ts] eqn:Ei; [discriminate|].
      destruct (forallb cleared (t0 :: ts)) eqn:Hall; [|discriminate].
      rewrite List.forallb_forall in Hall.
      assert (Hc : cleared (closure_at k n) = true).
      { apply Hall, list_elem_of_In. eapply list_elem_of_lookup_2, Hi. }
      apply closure_cleared_last in Hc; [|exact Hn]. subst n.
      apply closure_clamped. }
  pose proof (Hk K_projects) as H1. pose proof (Hk K_clients) as H2.
  pose proof (Hk K_years) as H3. pose proof (Hk K_hours) as H4.
  destruct (animatedStats s'). simpl in *. subst. reflexivity.
Qed.

Lemma all_cleared_shows_targets_witness :
  let evs := [crossing; Timer 0; crossing] ++
             concat (replicate 61 (map Timer (seq 0 8))) in
  exists s0 s',
    mount rendered = Ok s0 /\ session evs s0 = Ok s' /\ phase s' = Done /\
    runs_started s' = 2 /\ animatedStats s' = targets.
Proof.
  do 2 eexists.
  split; [reflexivity|]. split; [vm_compute; reflexivity|].
  split; [vm_compute; reflexivity|]. split; [vm_compute; reflexivity|].
  eapply (all_cleared_shows_targets rendered
            ([crossing; Timer 0; crossing] ++
             concat (replicate 61 (map Timer (seq 0 8))))).
  - reflexivity.
  - vm_compute. reflexivity.
  - vm_compute. reflexivity.
Defined.

Lemma fire_until (k : StatKey) (id m : nat) :
  forall (n : nat) (s : Page),
    intervals s !! id = Some (closure_at k n) -> n + m <= clampTick k ->
    exists s', session (replicate m (Timer id)) s = Ok s' /\
      intervals s' !! id = Some (closure_at k (n + m)).
Proof.
  induction m as [|m IH]; intros n s Hid Hn.
  - exists s. rewrite Nat.add_0_r. split; [reflexivity|exact Hid].
  - cbn [replicate session dispatch]. rewrite Hid.
    rewrite closure_active by lia. cbn [JS.bind].
    destruct (IH (S n) (timerCallback id (closure_at k n) s)) as (s' & Hs & Hid').
    + rewrite (proj1 (timerCallback_fields _ _ _)).
      apply list_lookup_insert_eq. now apply lookup_lt_Some with (1 := Hid).
    + lia.
    + exists s'. split; [exact Hs|]. rewrite Hid'. f_equal. f_equal. lia.
Qed.

(** X10: every timer stops by itself: in any state of any session, a timer of
    the table is cleared after at most 61 further firings, holding exactly its
    target, and from then on the browser has nothing to fire. *)
Theorem timer_stops_within_61 (doc : list Element) (evs : list Event)
    (s0 s' : Page) (id : nat) (t : Interval)
    (Hmount : mount doc = Ok s0) (Hsession : session evs s0 = Ok s')
    (Hid : intervals s' !! id = Some t) :
  exists (m : nat) (s'' : Page) (t' : Interval),
    m <= 61 /\
    session (replicate m (Timer id)) s' = Ok s'' /\
    intervals s'' !! id = Some t' /\
    key t' = key t /\ cleared t' = true /\ current t' = target t /\
    deliverable (Timer id) s'' = false.
Proof.
  destruct (counters_ok_reachable doc evs) as (s0' & s'' & Hm & Hs & Hall & _).
  rewrite Hmount in Hm. injection Hm as <-.
  rewrite Hsession in Hs. injection Hs as <-.
  assert (Ht : timer_ok t).
  { rewrite Forall_forall in Hall. apply Hall. eapply list_elem_of_lookup_2, Hid. }
  destruct Ht as (n & Hn & Et). set (k := key t) in *.
  rewrite Et in Hid.
  destruct (fire_until k id (clampTick k - n) n s' Hid) as (s'' & Hs & Hid'); [lia|].
  replace (n + (clampTick k - n)) with (clampTick k) in Hid' by lia.
  destruct (closure_clamped k) as (Hc & Hcur & _).
  exists (clampTick k - n), s'', (closure_at k (clampTick k)).
  split; [destruct k; simpl; lia|]. split; [exact Hs|]. split; [exact Hid'|].
  split; [apply closure_key|]. split; [exact Hc|].
  split.
  - rewrite Hcur, Et. symmetry. apply closure_constants.
  - simpl. rewrite Hid', Hc. reflexivity.
Qed.

Lemma timer_stops_within_61_witness :
  let evs := [crossing; Timer 2; crossing; Timer 6; Timer 2] in
  exists s0 s' t,
    mount rendered = Ok s0 /\ session evs s0 = Ok s' /\
    intervals s' !! 6 = Some t /\
    exists m s'' t',
      m <= 61 /\
      session (replicate m (Timer 6)) s' = Ok s'' /\
      intervals s'' !! 6 = Some t' /\
      key t' = key t /\ cleared t' = true /\ current t' = target t /\
      deliverable (Timer 6) s'' = false.
Proof.
  do 3 eexists.
  split; [reflexivity|]. split; [vm_compute; reflexivity|].
  split; [vm_compute; reflexivity|].
  eapply (timer_stops_within_61 rendered
            [crossing; Timer 2; crossing; Timer 6; Timer 2] _ _ 6 _).
  - reflexivity.
  - vm_compute. reflexivity.
  - vm_compute. reflexivity.
Defined.

(** ** Teardown *)

Lemma session_detached (evs : list Event) (s : Page) :
  scrollListening s = false -> observed s = [] -> feasible evs s = true ->
  exists s', session evs s = Ok s' /\
    scrollListening s' = false /\ observed s' = [] /\
    showWhatsApp s' = showWhatsApp s /\
    length (intervals s') = length (intervals s).
Proof.
  revert s. induction evs as [|e evs IH]; intros s Hl Ho Hf; simpl in *.
  - exists s. repeat split; assumption.
  - apply andb_prop in Hf as [Hd Hf].
    pose proof (deliverable_unobserved e s Ho Hd) as Ht.
    destruct (dispatch_ui e s) as (s1 & Hs1 & _ & Hw & _ & _ & _ & Hl1 & Ho1).
    destruct (dispatch_intervals e s) as (s1' & Hs1' & Hlen).
    rewrite Hs1 in Hs1'. injection Hs1' as <-. rewrite Hs1 in *. simpl.
    destruct (IH s1) as (s' & Hs & Hl' & Ho' & Hw' & Hlen');
      [congruence|congruence|exact Hf|].
    exists s'. split; [exact Hs|]. repeat split; try assumption.
    + rewrite Hw', Hw. destruct e; try reflexivity.
      simpl in Hd. congruence.
    + rewrite Hlen', Hlen, Ht. lia.
Qed.

(** X11: unmounting releases the scroll listener and the observer, and right
    after mounting it restores the initial page; from then on no scroll event
    and no intersection entry can be delivered, so the WhatsApp button keeps
    its state and no run is started.  It does not release the interval timers:
    the table is untouched and every timer that was active can still fire. *)
Theorem unmount_releases_listeners_not_timers (s : Page) (evs : list Event)
    (Hfeasible : feasible evs (unmount s) = true) :
  (exists s', session evs (unmount s) = Ok s' /\
     scrollListening s' = false /\ observed s' = [] /\
     showWhatsApp s' = showWhatsApp s /\
     runs_started s' = runs_started s) /\
  intervals (unmount s) = intervals s /\
  (forall id t, intervals s !! id = Some t -> cleared t = false ->
     deliverable (Timer id) (unmount s) = true) /\
  (forall y, deliverable (Scroll y) (unmount s) = false) /\
  (forall entry entries,
     deliverable (Intersection (entry :: entries)) (unmount s) = false) /\
  (forall doc s0, mount doc = Ok s0 -> unmount s0 = initial doc).
Proof.
  split; [|split; [reflexivity|split; [|split; [reflexivity|split; [reflexivity|]]]]].
  - destruct (session_detached evs (unmount s) eq_refl eq_refl Hfeasible)
      as (s' & Hs & Hl & Ho & Hw & Hlen).
    exists s'. repeat split; try assumption.
    unfold runs_started. rewrite Hlen. reflexivity.
  - intros id t Hid Hc. simpl. rewrite Hid, Hc. reflexivity.
  - intros doc s0 Hm. unfold mount, scrollEffect, observerEffect, observe in Hm.
    simpl in Hm. destruct (getElementById doc "stats-section");
      injection Hm as <-; reflexivity.
Qed.

Lemma unmount_releases_listeners_not_timers_witness :
  let s := animateStats (set_observed [mkElement "stats-section"]
                           (set_scrollListening true (initial rendered))) in
  let evs := [Timer 0; Click_menu; Timer 3] in
  feasible evs (unmount s) = true /\
  exists s', session evs (unmount s) = Ok s' /\
    scrollListening s' = false /\ observed s' = [] /\
    showWhatsApp s' = showWhatsApp s /\
    runs_started s' = runs_started s.
Proof.
  split; [vm_compute; reflexivity|].
  refine (proj1 (unmount_releases_listeners_not_timers
                   (animateStats (set_observed [mkElement "stats-section"]
                                    (set_scrollListening true (initial rendered))))
                   [Timer 0; Click_menu; Timer 3] _)).
  vm_compute. reflexivity.
Defined.

(** ** A crossing during or after a run *)

(** X12: a crossing restarts every counter from the bottom, whatever the page
    displays at that moment: in any state, once the timer the crossing
    registers for a key fires for the first time, the display of that key is
    the floor of one increment (2, 1, 0 and 0 for the four keys). *)
Theorem crossing_resets_display (s : Page) (k : StatKey) :
  exists s',
    session [crossing; Timer (length (intervals s) + timer_index k)] s = Ok s' /\
    get (animatedStats s') k = shown k 1 /\
    runs_started s' = S (runs_started s) /\
    map (fun k => shown k 1) Object_keys = [2; 1; 0; 0]%float.
Proof.
  assert (Hid : intervals (animateStats s) !! (length (intervals s) + timer_index k)
                = Some (closure_at k 0)).
  { rewrite animateStats_intervals, lookup_app_r by lia.
    replace (length (intervals s) + timer_index k - length (intervals s))
      with (timer_index k) by lia.
    destruct k; reflexivity. }
  cbn [session dispatch crossing JS.bind].
  change (observerCallback [mkEntry (mkElement "stats-section") true] s)
    with (animateStats s).
  rewrite Hid. change (cleared (closure_at k 0)) with false. cbn iota.
  eexists. split; [reflexivity|]. split; [|split; [|reflexivity]].
  - rewrite (proj2 (timerCallback_fields _ _ _)).
    change (tick (closure_at k 0)) with (closure_at k 1).
    rewrite closure_key, get_spread_set. destruct (decide (k = k)); [reflexivity|congruence].
  - unfold runs_started. rewrite timerCallback_length, animateStats_intervals, length_app.
    change (length (map closure0 Object_keys)) with (1 * 4).
    change (length Object_keys) with 4.
    rewrite Nat.div_add by discriminate. lia.
Qed.
